(** * cursor-hooks: the hook contract and its runtime guard

    A shallow embedding of [src/types.ts] (the event names, the payload and
    response interfaces, the guard [isHookPayloadOf]) and of the handler
    templates and the handler-map script of the README ("Combining
    handlers"), followed by the properties the specification states about
    them.

    Values are the data a hook script handles.  Every script of the README
    gets its input from [JSON.parse], so a value is what [JSON.parse]
    returns (null, a boolean, a number, a string, an array, a plain object
    with data properties), or [undefined] (the value of a missing property
    and of a [void] handler), or a function.  An object is a finite map
    from property names to values and an array is a list: an array has its
    elements and its length and no other own property.  Both inherit from
    the standard, unmodified built-in prototypes.  Numbers are rationals;
    no property below depends on how a number is represented.

    Code runs in a small state-and-exception monad over the two output
    channels of the process, so that "does not throw" and "has no effect"
    are statements about the code. *)

From Stdlib Require Import QArith Ascii.
From stdpp Require Import gmap strings list fin_maps.

Open Scope string_scope.
Set Warnings "-register-all".

(** ** Values *)

Module JS.

Inductive value :=
| VUndefined
| VNull
| VBoolean (b : bool)
| VNumber (n : Q)
| VString (s : string)
| VFunction (name : string)
| VArray (elements : list value)
| VObject (properties : gmap string value).

(** The [typeof] operator. *)
Definition typeof (v : value) : string :=
  match v with
  | VUndefined => "undefined"
  | VNull => "object"
  | VBoolean _ => "boolean"
  | VNumber _ => "number"
  | VString _ => "string"
  | VFunction _ => "function"
  | VArray _ => "object"
  | VObject _ => "object"
  end.

(** [v !== null]. *)
Definition not_null (v : value) : bool :=
  match v with
  | VNull => false
  | _ => true
  end.

(** [v === s] for a string primitive [s]: strict equality never converts,
    so only an equal string primitive compares equal. *)
Definition strict_equals_string (v : value) (s : string) : bool :=
  match v with
  | VString t => String.eqb t s
  | _ => false
  end.

(** *** Built-in members

    The names each kind of value answers to besides its own data
    properties: the members of the standard prototypes (ECMAScript 2023,
    annex B included) and the intrinsic [length], [name] and [prototype]. *)

Definition Object_prototype_keys : list string :=
  [ "constructor"; "hasOwnProperty"; "isPrototypeOf"; "propertyIsEnumerable";
    "toLocaleString"; "toString"; "valueOf"; "__proto__";
    "__defineGetter__"; "__defineSetter__"; "__lookupGetter__";
    "__lookupSetter__" ].

Definition Array_prototype_keys : list string :=
  [ "at"; "concat"; "copyWithin"; "entries"; "every"; "fill"; "filter";
    "find"; "findIndex"; "findLast"; "findLastIndex"; "flat"; "flatMap";
    "forEach"; "includes"; "indexOf"; "join"; "keys"; "lastIndexOf"; "map";
    "pop"; "push"; "reduce"; "reduceRight"; "reverse"; "shift"; "slice";
    "some"; "sort"; "splice"; "toReversed"; "toSorted"; "toSpliced";
    "unshift"; "values"; "with" ].

Definition Function_prototype_keys : list string :=
  [ "apply"; "bind"; "call"; "arguments"; "caller"; "name"; "prototype" ].

Definition String_prototype_keys : list string :=
  [ "anchor"; "at"; "big"; "blink"; "bold"; "charAt"; "charCodeAt";
    "codePointAt"; "concat"; "endsWith"; "fixed"; "fontcolor"; "fontsize";
    "includes"; "indexOf"; "isWellFormed"; "italics"; "lastIndexOf"; "link";
    "localeCompare"; "match"; "matchAll"; "normalize"; "padEnd"; "padStart";
    "repeat"; "replace"; "replaceAll"; "search"; "slice"; "small"; "split";
    "startsWith"; "strike"; "sub"; "substr"; "substring"; "sup";
    "toLocaleLowerCase"; "toLocaleUpperCase"; "toLowerCase"; "toUpperCase";
    "toWellFormed"; "trim"; "trimEnd"; "trimLeft"; "trimRight"; "trimStart" ].

Definition Number_prototype_keys : list string :=
  [ "toExponential"; "toFixed"; "toPrecision" ].

Definition mem (k : string) (ks : list string) : bool :=
  existsb (String.eqb k) ks.

(** The names of the built-in methods a value inherits. *)
Definition inherits (v : value) (k : string) : bool :=
  match v with
  | VUndefined | VNull => false
  | VBoolean _ => mem k Object_prototype_keys
  | VNumber _ => mem k Number_prototype_keys || mem k Object_prototype_keys
  | VString _ => mem k String_prototype_keys || mem k Object_prototype_keys
  | VFunction _ => mem k Function_prototype_keys || mem k Object_prototype_keys
  | VArray _ => mem k Array_prototype_keys || mem k Object_prototype_keys
  | VObject _ => mem k Object_prototype_keys
  end.

(** The array index a property name denotes: the name must be the
    canonical decimal form (digits only, no leading zero) of a number
    below [len]. *)
Definition digit (c : ascii) : option N :=
  let n := N_of_ascii c in
  if (48 <=? n)%N && (n <=? 57)%N then Some (n - 48)%N else None.

Fixpoint digits (s : string) (acc : N) : option N :=
  match s with
  | EmptyString => Some acc
  | String c t => d ← digit c; digits t (10 * acc + d)%N
  end.

Definition canonical_index (k : string) : option N :=
  match k with
  | EmptyString => None
  | String "0" EmptyString => Some 0%N
  | String "0" _ => None
  | _ => digits k 0
  end.

Definition array_index (k : string) (len : nat) : option nat :=
  n ← canonical_index k;
  if (n <? N.of_nat len)%N then Some (N.to_nat n) else None.

(** The own data property [k] of a value: a field of an object, an element
    or the length of an array, a character or the length of a string, the
    length of a function (its arity is not modelled: 0). *)
Definition own_property (v : value) (k : string) : option value :=
  match v with
  | VObject o => o !! k
  | VArray l =>
      if String.eqb k "length" then Some (VNumber (inject_Z (Z.of_nat (length l))))
      else i ← array_index k (length l); l !! i
  | VString s =>
      if String.eqb k "length" then Some (VNumber (inject_Z (Z.of_nat (String.length s))))
      else i ← array_index k (String.length s); Some (VString (String.substring i 1 s))
  | VFunction _ =>
      if String.eqb k "length" then Some (VNumber 0) else None
  | _ => None
  end.

(** *** Computations

    A computation runs in a world (what the process has written to its
    two output channels, and the handlers it has invoked so far) and ends
    by returning, by throwing, or by exiting the process. *)

Inductive exn :=
| TypeError (message : string)
| Error (message : string).

Record World := mkWorld {
  stdout : list string;
  stderr : list string;
  invoked : list string
}.

Inductive Outcome (A : Type) :=
| Return (a : A)
| Throw (e : exn)
| Exit (code : Z).
Arguments Return {A} a.
Arguments Throw {A} e.
Arguments Exit {A} code.

Definition Js (A : Type) : Type := World → Outcome A * World.

Definition ret {A} (a : A) : Js A := fun w => (Return a, w).

Definition bind {A B} (c : Js A) (k : A → Js B) : Js B :=
  fun w =>
    match c w with
    | (Return a, w') => k a w'
    | (Throw e, w') => (Throw e, w')
    | (Exit n, w') => (Exit n, w')
    end.

Definition throw {A} (e : exn) : Js A := fun w => (Throw e, w).

#[global] Instance Js_ret : MRet Js := @ret.
#[global] Instance Js_bind : MBind Js := fun A B k c => bind c k.

(** [a && b]: the right operand is evaluated only when the left one is
    true. *)
Definition and_then (a b : Js bool) : Js bool :=
  x ← a; if x : bool then b else ret false.
Infix "&&&" := and_then (at level 40, left associativity).

(** [console.log(s)], [console.error(s)] and [process.exit(code)]. *)
Definition console_log (s : string) : Js unit :=
  fun w => (Return tt, mkWorld (stdout w ++ [s]) (stderr w) (invoked w)).

Definition console_error (s : string) : Js unit :=
  fun w => (Return tt, mkWorld (stdout w) (stderr w ++ [s]) (invoked w)).

Definition process_exit {A} (code : Z) : Js A := fun w => (Exit code, w).

(** [k in v]: own or inherited property; a [TypeError] when [v] is not an
    object. *)
Definition has_property (k : string) (v : value) : Js bool :=
  match v with
  | VObject _ | VArray _ | VFunction _ =>
      ret (bool_decide (is_Some (own_property v k)) || inherits v k)
  | _ => throw (TypeError "Cannot use 'in' operator to search for a key in a primitive")
  end.

(** [v.k] (and [v[k]]): the own property, else the inherited built-in
    (a function value, named after the member), else [undefined]; a
    [TypeError] when [v] is [undefined] or [null]. *)
Definition get_property (v : value) (k : string) : Js value :=
  match v with
  | VUndefined | VNull =>
      throw (TypeError "Cannot read properties of undefined or null")
  | _ =>
      ret (match own_property v k with
           | Some x => x
           | None => if inherits v k then VFunction k else VUndefined
           end)
  end.

End JS.

Import JS.

(** ** src/types.ts: event names *)

(** [HookEventName]: the six supported hook events. *)
Inductive HookEventName :=
| beforeShellExecution
| beforeMCPExecution
| afterFileEdit
| beforeReadFile
| beforeSubmitPrompt
| stop.

#[global] Instance HookEventName_eq_dec : EqDecision HookEventName.
Proof. solve_decision. Defined.

Definition all_events : list HookEventName :=
  [ beforeShellExecution; beforeMCPExecution; afterFileEdit;
    beforeReadFile; beforeSubmitPrompt; stop ].

(** The string literal each member of the union is at run time. *)
Definition event_name (e : HookEventName) : string :=
  match e with
  | beforeShellExecution => "beforeShellExecution"
  | beforeMCPExecution => "beforeMCPExecution"
  | afterFileEdit => "afterFileEdit"
  | beforeReadFile => "beforeReadFile"
  | beforeSubmitPrompt => "beforeSubmitPrompt"
  | stop => "stop"
  end.

Definition event_of_name (s : string) : option HookEventName :=
  List.find (fun e => String.eqb (event_name e) s) all_events.

(** ** src/types.ts: the guard *)

(** [[
    return (
        typeof payload === "object" &&
        payload !== null &&
        "hook_event_name" in payload &&
        (payload as HookPayloadBase).hook_event_name === event
    );
    ]] *)
Definition isHookPayloadOf (payload : value) (event : HookEventName) : Js bool :=
  ret (String.eqb (typeof payload) "object") &&&
  ret (not_null payload) &&&
  has_property "hook_event_name" payload &&&
  (name ← get_property payload "hook_event_name";
   ret (strict_equals_string name (event_name event))).

(** ** src/types.ts: payload and response shapes

    An interface is embedded as the test a run-time value passes when it
    has the declared shape.  Interfaces are open: further properties are
    allowed.  An optional member [m?: T] may be missing or [undefined]. *)

Definition is_string (v : value) : bool :=
  match v with VString _ => true | _ => false end.

Definition is_boolean (v : value) : bool :=
  match v with VBoolean _ => true | _ => false end.

Definition is_literal (ls : list string) (v : value) : bool :=
  match v with VString s => mem s ls | _ => false end.

Definition is_array_of (p : value → bool) (v : value) : bool :=
  match v with VArray l => forallb p l | _ => false end.

Definition required (p : value → bool) (o : gmap string value) (k : string) : bool :=
  match o !! k with Some v => p v | None => false end.

Definition optional (p : value → bool) (o : gmap string value) (k : string) : bool :=
  match o !! k with Some VUndefined | None => true | Some v => p v end.

Definition is_interface (fields : gmap string value → bool) (v : value) : bool :=
  match v with VObject o => fields o | _ => false end.

Definition HookPayloadBase (o : gmap string value) : bool :=
  required is_string o "conversation_id" &&
  required is_string o "generation_id" &&
  required (is_literal (event_name <$> all_events)) o "hook_event_name" &&
  required (is_array_of is_string) o "workspace_roots".

Definition HookPermission : list string := [ "allow"; "deny"; "ask" ].

Definition HookPermissionResponse : value → bool :=
  is_interface (fun o =>
    required (is_literal HookPermission) o "permission" &&
    optional is_string o "userMessage" &&
    optional is_string o "agentMessage").

Definition HookTextEdit : value → bool :=
  is_interface (fun o =>
    required is_string o "old_string" && required is_string o "new_string").

Definition HookAttachment : value → bool :=
  is_interface (fun o =>
    required is_string o "type" && required is_string o "file_path").

Definition BeforeReadFileResponse : value → bool :=
  is_interface (fun o => required (is_literal [ "allow"; "deny" ]) o "permission").

Definition BeforeSubmitPromptResponse : value → bool :=
  is_interface (fun o => required is_boolean o "continue").

Definition is_void (v : value) : bool :=
  match v with VUndefined => true | _ => false end.

(** [HookPayloadMap]: the payload interface of each event. *)
Definition HookPayloadMap (e : HookEventName) : value → bool :=
  is_interface (fun o =>
    HookPayloadBase o &&
    required (is_literal [ event_name e ]) o "hook_event_name" &&
    match e with
    | beforeShellExecution =>
        required is_string o "command" && required is_string o "cwd"
    | beforeMCPExecution =>
        required is_string o "tool_name" &&
        required (fun _ => true) o "tool_input" &&
        optional is_string o "url" &&
        optional is_string o "command"
    | afterFileEdit =>
        required is_string o "file_path" &&
        required (is_array_of HookTextEdit) o "edits"
    | beforeReadFile =>
        required is_string o "file_path" &&
        required is_string o "content" &&
        required (is_array_of HookAttachment) o "attachments"
    | beforeSubmitPrompt =>
        required is_string o "prompt" &&
        required (is_array_of HookAttachment) o "attachments"
    | stop =>
        required (is_literal [ "completed"; "aborted"; "error" ]) o "status"
    end).

(** [HookResponseMap]: the response type of each event. *)
Definition HookResponseMap (e : HookEventName) : value → bool :=
  match e with
  | beforeShellExecution => HookPermissionResponse
  | beforeMCPExecution => HookPermissionResponse
  | afterFileEdit => is_void
  | beforeReadFile => BeforeReadFileResponse
  | beforeSubmitPrompt => BeforeSubmitPromptResponse
  | stop => is_void
  end.

(** [HookCommandConfig]: one entry of hooks.json. *)
Definition HookCommandConfig : value → bool :=
  is_interface (fun o => required is_string o "command").

(** ** README, "Hook-by-hook templates" and "Combining handlers" *)

Section Script.

(** How a number and a function print, the text [console.log] gets from
    [JSON.stringify], and what a member inherited from
    [Object.prototype] does when it is called as a handler, are left
    open. *)
Variable Number_toString : Q → string.
Variable Function_toString : string → string.
Variable JSON_stringify : value → string.
Variable Object_prototype_call : string → value → Js value.

(** The string a value converts to in a template literal and as a
    property key. *)
Fixpoint ToString (v : value) : string :=
  match v with
  | VUndefined => "undefined"
  | VNull => "null"
  | VBoolean true => "true"
  | VBoolean false => "false"
  | VNumber n => Number_toString n
  | VString s => s
  | VFunction f => Function_toString f
  | VArray l =>
      String.concat ","
        (List.map (fun x => match x with
                            | VUndefined | VNull => ""
                            | _ => ToString x
                            end) l)
  | VObject _ => "[object Object]"
  end.

(** [HookHandler]: from a payload to a response; a [void] handler
    returns [undefined].  An [await]ed promise is its settled result. *)
Definition HookHandler : Type := value → Js value.

(** [[
    if (!isHookPayloadOf(payload, "stop")) {
      throw new Error("Invalid stop payload");
    }
    const input: StopPayload = payload;
    console.error(`Agent finished with status: ${input.status}`);
    ]] *)
Definition handleStop : HookHandler := fun payload =>
  ok ← isHookPayloadOf payload stop;
  if negb ok then throw (Error "Invalid stop payload") else
  status ← get_property payload "status";
  console_error ("Agent finished with status: " ++ ToString status);;
  mret VUndefined.

(** [[
    if (!isHookPayloadOf(payload, "beforeMCPExecution")) {
      throw new Error("Invalid beforeMCPExecution payload");
    }
    const input: BeforeMCPExecutionPayload = payload;
    if (input.tool_name === "dangerousTool") {
      return { permission: "ask", userMessage: ..., agentMessage: ... };
    }
    return { permission: "allow" };
    ]] *)
Definition handleBeforeMCPExecution : HookHandler := fun payload =>
  ok ← isHookPayloadOf payload beforeMCPExecution;
  if negb ok then throw (Error "Invalid beforeMCPExecution payload") else
  tool_name ← get_property payload "tool_name";
  if strict_equals_string tool_name "dangerousTool" then
    mret (VObject (<["permission" := VString "ask"]>
                  (<["userMessage" := VString "Tool requires confirmation."]>
                  (<["agentMessage" := VString "Waiting for user approval."]> ∅))))
  else
    mret (VObject {[ "permission" := VString "allow" ]}).

(** The other four handlers of the table. *)
Variables handleBeforeShellExecution handleAfterFileEdit
          handleBeforeReadFile handleBeforeSubmitPrompt : HookHandler.

(** [const handlers: Partial<Record<HookEventName, HookHandler<HookEventName>>>] *)
Definition handlers : gmap string HookHandler :=
  <["beforeShellExecution" := handleBeforeShellExecution]>
  (<["beforeMCPExecution" := handleBeforeMCPExecution]>
  (<["afterFileEdit" := handleAfterFileEdit]>
  (<["beforeReadFile" := handleBeforeReadFile]>
  (<["beforeSubmitPrompt" := handleBeforeSubmitPrompt]>
  (<["stop" := handleStop]> ∅))))).

(** [table[key]]: an own entry, else what the table object inherits. *)
Definition handler_lookup (table : gmap string HookHandler) (key : string)
  : option HookHandler :=
  match table !! key with
  | Some h => Some h
  | None =>
      if mem key Object_prototype_keys
      then Some (Object_prototype_call key) else None
  end.

(** Calling the handler found under [key]; the call is recorded in the
    world. *)
Definition invoke (key : string) (h : HookHandler) (payload : value) : Js value :=
  fun w => h payload (mkWorld (stdout w) (stderr w) (invoked w ++ [key])).

(** The script, from the decoded payload on, over any handler table:
    [[
    const handler = handlers[payload.hook_event_name];
    if (handler) {
      const response = await handler(payload as never);
      if (response !== undefined) {
        console.log(JSON.stringify(response));
      }
    } else {
      console.error(`No handler for ${payload.hook_event_name}`);
      process.exit(1);
    }
    ]] *)
Definition dispatch (table : gmap string HookHandler) (payload : value) : Js unit :=
  name ← get_property payload "hook_event_name";
  match handler_lookup table (ToString name) with
  | Some handler =>
      response ← invoke (ToString name) handler payload;
      if is_void response then mret tt
      else console_log (JSON_stringify response)
  | None =>
      name' ← get_property payload "hook_event_name";
      console_error ("No handler for " ++ ToString name');;
      process_exit 1
  end.

End Script.

(** ** README: the other handler templates and the stand-alone scripts *)

(** [s.includes(needle)] on strings: [needle] occurs in [s]. *)
Fixpoint includes (needle s : string) : bool :=
  String.prefix needle s ||
  match s with
  | EmptyString => false
  | String _ t => includes needle t
  end.

(** Truthiness, as [if] and [?:] take it. *)
Definition ToBoolean (v : value) : bool :=
  match v with
  | VUndefined | VNull => false
  | VBoolean b => b
  | VNumber n => negb (Qeq_bool n 0)
  | VString s => negb (String.eqb s "")
  | VFunction _ | VArray _ | VObject _ => true
  end.

(** The characters of a string, as [for ... of] yields them. *)
Fixpoint characters (s : string) : list value :=
  match s with
  | EmptyString => []
  | String c t => VString (String c EmptyString) :: characters t
  end.

(** What [for (const x of v)] iterates over: the elements of an array, the
    characters of a string; nothing else among the values is iterable. *)
Definition iterate (v : value) : Js (list value) :=
  match v with
  | VArray l => mret l
  | VString s => mret (characters s)
  | _ => throw (TypeError "value is not iterable")
  end.

Fixpoint for_each (l : list value) (body : value → Js unit) : Js unit :=
  match l with
  | [] => mret tt
  | x :: rest => body x;; for_each rest body
  end.

Section Templates.

(** Left open besides the conversions of the script above: the number a
    string converts to (none when it is not numeric), what calling a
    function value with a receiver and arguments does, the line the console
    prints for a message followed by a value, and the text of
    [JSON.stringify(v, null, 2)]. *)
Variable Number_toString : Q → string.
Variable Function_toString : string → string.
Variable String_toNumber : string → option Q.
Variable call_function : string → value → list value → Js value.
Variable console_format : string → value → string.
Variable JSON_stringify : value → string.
Variable JSON_stringify_indented : value → string.

(** The number a value converts to in a comparison; [None] is [NaN]. *)
Definition ToNumber (v : value) : option Q :=
  match v with
  | VUndefined => None
  | VNull => Some 0%Q
  | VBoolean b => Some (if b then 1%Q else 0%Q)
  | VNumber n => Some n
  | VString s => String_toNumber s
  | VFunction _ | VArray _ | VObject _ =>
      String_toNumber (ToString Number_toString Function_toString v)
  end.

(** [v > bound] for a number [bound]; false when [v] converts to [NaN]. *)
Definition greater_than (v : value) (bound : Q) : bool :=
  match ToNumber v with
  | Some n => negb (Qle_bool n bound)
  | None => false
  end.

(** [console.error(message, v)]. *)
Definition console_error_with (message : string) (v : value) : Js unit :=
  console_error (console_format message v).

(** [recv.includes(needle)] for a string [needle]: an own [includes] is
    called if it is a function; strings and arrays inherit the built-in
    ones; anything else has no such method. *)
Definition call_includes (recv : value) (needle : string) : Js value :=
  f ← get_property recv "includes";
  match own_property recv "includes", f with
  | Some _, VFunction g => call_function g recv [VString needle]
  | None, VFunction _ =>
      match recv with
      | VString s => mret (VBoolean (includes needle s))
      | VArray l =>
          mret (VBoolean (existsb (fun x => strict_equals_string x needle) l))
      | _ => throw (TypeError "includes is not a function")
      end
  | _, _ => throw (TypeError "includes is not a function")
  end.

(** [recv.startsWith(start)] for a string [start]; only strings inherit
    it. *)
Definition call_startsWith (recv : value) (start : string) : Js value :=
  f ← get_property recv "startsWith";
  match own_property recv "startsWith", f with
  | Some _, VFunction g => call_function g recv [VString start]
  | None, VFunction _ =>
      match recv with
      | VString s => mret (VBoolean (String.prefix start s))
      | _ => throw (TypeError "startsWith is not a function")
      end
  | _, _ => throw (TypeError "startsWith is not a function")
  end.

(** [[
    if (!isHookPayloadOf(payload, "beforeShellExecution")) {
      throw new Error("Invalid beforeShellExecution payload");
    }
    const input: BeforeShellExecutionPayload = payload;
    if (input.command.includes("rm -rf")) {
      return {
        permission: "deny",
        userMessage: "Dangerous command blocked.",
        agentMessage: "Rejected destructive command.",
      };
    }
    return { permission: "allow" };
    ]] *)
Definition handleBeforeShellExecution : HookHandler := fun payload =>
  ok ← isHookPayloadOf payload beforeShellExecution;
  if negb ok then throw (Error "Invalid beforeShellExecution payload") else
  command ← get_property payload "command";
  dangerous ← call_includes command "rm -rf";
  if ToBoolean dangerous then
    mret (VObject (<["permission" := VString "deny"]>
                  (<["userMessage" := VString "Dangerous command blocked."]>
                  (<["agentMessage" := VString "Rejected destructive command."]> ∅))))
  else
    mret (VObject {[ "permission" := VString "allow" ]}).

(** [[
    if (!isHookPayloadOf(payload, "afterFileEdit")) {
      throw new Error("Invalid afterFileEdit payload");
    }
    const input: AfterFileEditPayload = payload;
    for (const edit of input.edits) {
      console.error(`Edited ${input.file_path}:`, edit);
    }
    ]] *)
Definition handleAfterFileEdit : HookHandler := fun payload =>
  ok ← isHookPayloadOf payload afterFileEdit;
  if negb ok then throw (Error "Invalid afterFileEdit payload") else
  edits ← get_property payload "edits";
  items ← iterate edits;
  for_each items (fun edit =>
    file_path ← get_property payload "file_path";
    console_error_with
      ("Edited " ++ ToString Number_toString Function_toString file_path ++ ":")
      edit);;
  mret VUndefined.

(** [[
    if (!isHookPayloadOf(payload, "beforeReadFile")) {
      throw new Error("Invalid beforeReadFile payload");
    }
    const input: BeforeReadFilePayload = payload;
    const containsSecret = input.content.includes("API_KEY");
    return containsSecret ? { permission: "deny" } : { permission: "allow" };
    ]] *)
Definition handleBeforeReadFile : HookHandler := fun payload =>
  ok ← isHookPayloadOf payload beforeReadFile;
  if negb ok then throw (Error "Invalid beforeReadFile payload") else
  content ← get_property payload "content";
  containsSecret ← call_includes content "API_KEY";
  if ToBoolean containsSecret
  then mret (VObject {[ "permission" := VString "deny" ]})
  else mret (VObject {[ "permission" := VString "allow" ]}).

(** [[
    if (!isHookPayloadOf(payload, "beforeSubmitPrompt")) {
      throw new Error("Invalid beforeSubmitPrompt payload");
    }
    const input: BeforeSubmitPromptPayload = payload;
    if (input.prompt.length > 2000) {
      return { continue: false };
    }
    return { continue: true };
    ]] *)
Definition handleBeforeSubmitPrompt : HookHandler := fun payload =>
  ok ← isHookPayloadOf payload beforeSubmitPrompt;
  if negb ok then throw (Error "Invalid beforeSubmitPrompt payload") else
  prompt ← get_property payload "prompt";
  len ← get_property prompt "length";
  if greater_than len 2000
  then mret (VObject {[ "continue" := VBoolean false ]})
  else mret (VObject {[ "continue" := VBoolean true ]}).

(** The table of the README, with the six templates in it. *)
Definition readme_handlers : gmap string HookHandler :=
  handlers Number_toString Function_toString
    handleBeforeShellExecution handleAfterFileEdit
    handleBeforeReadFile handleBeforeSubmitPrompt.

(** "Quick start (Bun + TypeScript)", from the decoded input on:
    [[
    if (!isHookPayloadOf(rawInput, "beforeShellExecution")) {
      console.error("Unexpected hook payload", rawInput);
      process.exit(1);
    }
    const input: BeforeShellExecutionPayload = rawInput;
    const response: BeforeShellExecutionResponse = {
      permission: input.command.includes("rm -rf") ? "deny" : "allow",
      userMessage: "Command reviewed.",
    };
    console.log(JSON.stringify(response));
    ]] *)
Definition quick_start (rawInput : value) : Js unit :=
  ok ← isHookPayloadOf rawInput beforeShellExecution;
  if negb ok then
    console_error_with "Unexpected hook payload" rawInput;;
    process_exit 1
  else
  command ← get_property rawInput "command";
  dangerous ← call_includes command "rm -rf";
  console_log (JSON_stringify
    (VObject (<["permission" :=
                  VString (if ToBoolean dangerous then "deny" else "allow")]>
             (<["userMessage" := VString "Command reviewed."]> ∅)))).

(** "Example 1: Block npm commands, enforce bun", from the decoded input
    on:
    [[
    const startsWithNpm =
      input.command.startsWith("npm") || input.command.includes(" npm ");
    const output: BeforeShellExecutionResponse = {
      permission: startsWithNpm ? "deny" : "allow",
      agentMessage: startsWithNpm
        ? "npm is not allowed, always use bun instead" : undefined,
    };
    console.log(JSON.stringify(output, null, 2));
    ]] *)
Definition block_npm (input : value) : Js unit :=
  command ← get_property input "command";
  starts ← call_startsWith command "npm";
  startsWithNpm ←
    (if ToBoolean starts then mret starts
     else command' ← get_property input "command";
          call_includes command' " npm ");
  console_log (JSON_stringify_indented
    (VObject (<["permission" :=
                  VString (if ToBoolean startsWithNpm then "deny" else "allow")]>
             (<["agentMessage" :=
                  if ToBoolean startsWithNpm
                  then VString "npm is not allowed, always use bun instead"
                  else VUndefined]> ∅)))).

End Templates.

(** ** hooks.json *)

(** Modelled from the spec: the configuration shape validator (section 4.4
    of the specification), which the package ships as
    [schema/hooks.schema.json]; [src/types.ts] has only the declaration
    [CursorHooksConfig] ([version: 1], [hooks] a partial record over
    [HookEventName] of [HookCommandConfig[]]).  A decoded value is accepted
    when it is an object with a [version] equal to 1 and a [hooks] object
    whose keys are event names and whose values are lists of entries that
    carry a [command] string; other top-level fields are tolerated. *)
Definition validateConfig (config : value) : bool :=
  match config with
  | VObject o =>
      match o !! "version", o !! "hooks" with
      | Some (VNumber version), Some (VObject hooks) =>
          Qeq_bool version 1 &&
          bool_decide (map_Forall (λ key entries,
                         is_Some (event_of_name key) ∧
                         is_array_of HookCommandConfig entries) hooks)
      | _, _ => false
      end
  | _ => false
  end.

(** ** Definitions the statements use *)

(** What the guard answers, read off the value: the own discriminant of an
    object is a string equal to the event's name. *)
Definition discriminates (payload : value) (event : HookEventName) : bool :=
  match payload with
  | VObject o =>
      match o !! "hook_event_name" with
      | Some name => strict_equals_string name (event_name event)
      | None => false
      end
  | _ => false
  end.

(** The permissions a response of event [E] can carry: the values of the
    [permission] property of the values of type [HookResponseMap[E]]. *)
Definition admits_permission (E : HookEventName) (p : value) : Prop :=
  ∃ r, HookResponseMap E r = true ∧ own_property r "permission" = Some p.

(** ** Sample data *)

Definition empty_world : World := mkWorld [] [] [].

(** [{hook_event_name: "beforeReadFile", file_path: "/proj/.env",
      content: "API_KEY=1", attachments: [], conversation_id: "c1",
      generation_id: "g1", workspace_roots: ["/proj"]}] *)
Definition read_file_payload : value :=
  VObject (<["hook_event_name" := VString "beforeReadFile"]>
          (<["file_path" := VString "/proj/.env"]>
          (<["content" := VString "API_KEY=1"]>
          (<["attachments" := VArray []]>
          (<["conversation_id" := VString "c1"]>
          (<["generation_id" := VString "g1"]>
          (<["workspace_roots" := VArray [VString "/proj"]]> ∅))))))).

(** [{hook_event_name: "beforeReadFile", content: 42}] *)
Definition malformed_read_file_payload : value :=
  VObject (<["hook_event_name" := VString "beforeReadFile"]>
          (<["content" := VNumber 42]> ∅)).

(** [{hook_event_name: "stop", status: "completed"}] *)
Definition stop_payload : value :=
  VObject (<["hook_event_name" := VString "stop"]>
          (<["status" := VString "completed"]> ∅)).

(** [{hook_event_name: "toString"}] *)
Definition toString_payload : value :=
  VObject {[ "hook_event_name" := VString "toString" ]}.

(** [{"version": 1, "hooks": {"beforeShellExecution":
      [{"command": "./hooks/before-shell-execution.ts"}]}}] (README) *)
Definition readme_config : value :=
  VObject (<["version" := VNumber 1]>
          (<["hooks" := VObject
              {[ "beforeShellExecution" :=
                   VArray [VObject {[ "command" :=
                     VString "./hooks/before-shell-execution.ts" ]}] ]}]> ∅)).

(** [{"version": 2, "hooks": {}}] *)
Definition scenario_C_config : value :=
  VObject (<["version" := VNumber 2]> (<["hooks" := VObject ∅]> ∅)).

(** [{"version": 1, "hooks": {"beforeReadFile": [{"command": "./x.sh"}],
      "notAnEvent": []}}] *)
Definition scenario_E_config : value :=
  VObject (<["version" := VNumber 1]>
          (<["hooks" := VObject
              (<["beforeReadFile" :=
                   VArray [VObject {[ "command" := VString "./x.sh" ]}]]>
              (<["notAnEvent" := VArray []]> ∅))]> ∅)).

(** [{stop: handleStop}], a table for one event of the six. *)
Definition stop_only_table : gmap string HookHandler :=
  {[ "stop" := handleStop (λ _, "0") (λ f, f) ]}.

(** The handler the README registers for each event, with the same open
    conversions as the templates. *)
Definition handler_of
    (Number_toString : Q → string) (Function_toString : string → string)
    (String_toNumber : string → option Q)
    (call_function : string → value → list value → Js value)
    (console_format : string → value → string)
    (E : HookEventName) : HookHandler :=
  match E with
  | beforeShellExecution => handleBeforeShellExecution call_function
  | beforeMCPExecution => handleBeforeMCPExecution
  | afterFileEdit =>
      handleAfterFileEdit Number_toString Function_toString console_format
  | beforeReadFile => handleBeforeReadFile call_function
  | beforeSubmitPrompt =>
      handleBeforeSubmitPrompt Number_toString Function_toString String_toNumber
  | stop => handleStop Number_toString Function_toString
  end.

(** The responses the templates return. *)
Definition permission_response (p : string) : value :=
  VObject {[ "permission" := VString p ]}.

Definition blocked_response : value :=
  VObject (<["permission" := VString "deny"]>
          (<["userMessage" := VString "Dangerous command blocked."]>
          (<["agentMessage" := VString "Rejected destructive command."]> ∅))).

Definition confirm_response : value :=
  VObject (<["permission" := VString "ask"]>
          (<["userMessage" := VString "Tool requires confirmation."]>
          (<["agentMessage" := VString "Waiting for user approval."]> ∅))).


(** The field of an object as a property read gives it when the name is not
    a built-in one: [undefined] when missing. *)
Definition field (o : gmap string value) (k : string) : value :=
  match o !! k with
  | Some x => x
  | None => VUndefined
  end.

(** A string of [n] letters. *)
Fixpoint letters (n : nat) : string :=
  match n with
  | O => EmptyString
  | S m => String "a" (letters m)
  end.

(** Conversions to run the samples with. *)
Definition sample_Number_toString : Q → string := λ _, "0".
Definition sample_Function_toString : string → string := λ f, f.
Definition sample_String_toNumber : string → option Q := λ _, None.
Definition sample_call_function : string → value → list value → Js value :=
  λ _ _ _, mret VUndefined.
Definition sample_console_format : string → value → string := λ m _, m.
Definition sample_JSON_stringify : value → string := λ _, "{}".

(** [{hook_event_name: "beforeShellExecution", command: "rm -rf /",
      cwd: "/", conversation_id: "c1", generation_id: "g1",
      workspace_roots: ["/proj"]}] (scenario A) *)
Definition scenario_A_fields : gmap string value :=
  <["hook_event_name" := VString "beforeShellExecution"]>
  (<["command" := VString "rm -rf /"]>
  (<["cwd" := VString "/"]>
  (<["conversation_id" := VString "c1"]>
  (<["generation_id" := VString "g1"]>
  (<["workspace_roots" := VArray [VString "/proj"]]> ∅))))).


(** The responses of the npm example. *)
Definition npm_blocked_response : value :=
  VObject (<["permission" := VString "deny"]>
          (<["agentMessage" := VString "npm is not allowed, always use bun instead"]> ∅)).

Definition npm_allowed_response : value :=
  VObject (<["permission" := VString "allow"]>
          (<["agentMessage" := VUndefined]> ∅)).

(** The response of the quick-start script. *)
Definition reviewed_response (p : string) : value :=
  VObject (<["permission" := VString p]>
          (<["userMessage" := VString "Command reviewed."]> ∅)).

(** [{hook_event_name: "beforeMCPExecution", tool_name: "dangerousTool"}] *)
Definition dangerous_tool_fields : gmap string value :=
  <["hook_event_name" := VString "beforeMCPExecution"]>
  (<["tool_name" := VString "dangerousTool"]> ∅).


(** [{hook_event_name: "beforeShellExecution"}] *)
Definition no_command_fields : gmap string value :=
  {[ "hook_event_name" := VString "beforeShellExecution" ]}.

(** [{command: "npm install"}] *)
Definition npm_install_fields : gmap string value :=
  {[ "command" := VString "npm install" ]}.

(** The properties of an object. *)
Definition properties_of (v : value) : gmap string value :=
  match v with
  | VObject o => o
  | _ => ∅
  end.

(** The events whose response type is [void]. *)
Definition is_notification (E : HookEventName) : bool :=
  match E with
  | afterFileEdit | stop => true
  | _ => false
  end.

(** * Properties *)

(** A value is a string of a list of literals exactly when it is one of
    them. *)
Ltac literal_cases :=
  split;
  [ intros (? & -> & Hin); simpl in Hin;
    repeat (destruct Hin as [<-|Hin]; [tauto|]); destruct Hin
  | intros Hcase; repeat (destruct Hcase as [->|Hcase]);
    try rewrite Hcase;
    eexists; (split; [reflexivity | simpl; tauto]) ].


(** ** The event names *)

Lemma event_name_inj e1 e2 : event_name e1 = event_name e2 → e1 = e2.
Proof. destruct e1, e2; simpl; intros H; first [ reflexivity | discriminate H ]. Qed.

Lemma event_of_name_event_name e : event_of_name (event_name e) = Some e.
Proof. destruct e; reflexivity. Qed.

Lemma event_of_name_Some s e : event_of_name s = Some e → s = event_name e.
Proof.
  unfold event_of_name. intros H.
  apply find_some in H as [_ H]. symmetry. by apply String.eqb_eq.
Qed.

Lemma event_name_eqb e1 e2 :
  String.eqb (event_name e1) (event_name e2) = bool_decide (e1 = e2).
Proof. destruct e1, e2; reflexivity. Qed.

(** ** The guard computes [discriminates] and leaves the world alone *)

Lemma own_property_array_discriminant l :
  own_property (VArray l) "hook_event_name" = None.
Proof. reflexivity. Qed.

Lemma inherits_discriminant v : inherits v "hook_event_name" = false.
Proof. destruct v; reflexivity. Qed.

Lemma isHookPayloadOf_run payload event w :
  isHookPayloadOf payload event w = (Return (discriminates payload event), w).
Proof.
  destruct payload as [| | b | n | s | f | l | o]; try reflexivity.
  unfold isHookPayloadOf, and_then, has_property, get_property, discriminates.
  simpl. unfold mbind, Js_bind, bind, ret. simpl.
  destruct (o !! "hook_event_name") as [name|]; reflexivity.
Qed.

Lemma discriminates_own_property payload event :
  discriminates payload event =
    String.eqb (typeof payload) "object" && not_null payload &&
    match own_property payload "hook_event_name" with
    | Some name => strict_equals_string name (event_name event)
    | None => false
    end.
Proof. destruct payload; reflexivity. Qed.

Lemma strict_equals_string_true v s :
  strict_equals_string v s = true ↔ v = VString s.
Proof.
  destruct v; simpl; try (split; [discriminate | intros [=]]).
  rewrite String.eqb_eq. split; [intros ->; reflexivity | intros [=]; assumption].
Qed.

(** The tests on the type and on [null] are what keeps the guard from
    throwing: on their own, the two property operators throw. *)
Example in_primitive_throws :
  ∃ e, has_property "hook_event_name" (VString "stop") empty_world
       = (Throw e, empty_world).
Proof. eexists. reflexivity. Qed.

Example get_null_throws :
  ∃ e, get_property VNull "hook_event_name" empty_world = (Throw e, empty_world).
Proof. eexists. reflexivity. Qed.

(** Scenario D. *)
Example scenario_D :
  isHookPayloadOf read_file_payload beforeSubmitPrompt empty_world
  = (Return false, empty_world).
Proof. reflexivity. Qed.

(** An array is of type object and not null; it is turned down for lack
    of the discriminant. *)
Example array_is_object :
  typeof (VArray [VString "stop"]) = "object" ∧
  has_property "hook_event_name" (VArray [VString "stop"]) empty_world
  = (Return false, empty_world) ∧
  has_property "0" (VArray [VString "stop"]) empty_world
  = (Return true, empty_world).
Proof. repeat split. Qed.

(** ** The guard *)

(** C1. For every event [E] and every non-null object [P] whose
    [hook_event_name] field is [E], [isHookPayloadOf P E] returns true, and
    [isHookPayloadOf P E2] returns false for every other event [E2]. *)
Theorem isHookPayloadOf_discriminant (P : value) (E : HookEventName) (w : World) :
  typeof P = "object" →
  P ≠ VNull →
  own_property P "hook_event_name" = Some (VString (event_name E)) →
  isHookPayloadOf P E w = (Return true, w) ∧
  ∀ E2, E2 ≠ E → isHookPayloadOf P E2 w = (Return false, w).
Proof.
  intros Htype Hnull Hname. split; [|intros E2 Hne];
    rewrite isHookPayloadOf_run, discriminates_own_property, Htype, Hname;
    destruct P; try done; simpl; rewrite event_name_eqb.
  - by rewrite bool_decide_eq_true_2.
  - by rewrite bool_decide_eq_false_2 by congruence.
Qed.

Lemma isHookPayloadOf_discriminant_witness :
  isHookPayloadOf read_file_payload beforeReadFile empty_world
    = (Return true, empty_world) ∧
  isHookPayloadOf read_file_payload beforeSubmitPrompt empty_world
    = (Return false, empty_world).
Proof.
  destruct (isHookPayloadOf_discriminant read_file_payload beforeReadFile empty_world)
    as [Hyes Hno]; [reflexivity | discriminate | reflexivity |].
  split; [exact Hyes | apply Hno; discriminate].
Defined.

(** C2. [isHookPayloadOf] returns a boolean for every value and every
    event, it never throws; and it returns false for whatever is not of
    type object (primitives, [undefined], functions), for [null], for
    every array, and for every value that has no [hook_event_name]. *)
Theorem isHookPayloadOf_total (v : value) (E : HookEventName) (w : World) :
  (∃ b, isHookPayloadOf v E w = (Return b, w)) ∧
  (typeof v ≠ "object" → isHookPayloadOf v E w = (Return false, w)) ∧
  (v = VNull → isHookPayloadOf v E w = (Return false, w)) ∧
  (∀ l, v = VArray l → isHookPayloadOf v E w = (Return false, w)) ∧
  (own_property v "hook_event_name" = None →
   isHookPayloadOf v E w = (Return false, w)).
Proof.
  rewrite isHookPayloadOf_run. split; [|split; [|split; [|split]]].
  - eauto.
  - intros Htype. destruct v; simpl in *; congruence.
  - by intros ->.
  - by intros l ->.
  - intros Hnone. rewrite discriminates_own_property, Hnone.
    by rewrite andb_false_r.
Qed.

Lemma isHookPayloadOf_total_witness :
  isHookPayloadOf (VString "stop") stop empty_world = (Return false, empty_world) ∧
  isHookPayloadOf VNull stop empty_world = (Return false, empty_world) ∧
  isHookPayloadOf (VArray [VString "stop"]) stop empty_world
    = (Return false, empty_world) ∧
  isHookPayloadOf (VObject {[ "status" := VString "completed" ]}) stop empty_world
    = (Return false, empty_world).
Proof.
  split; [|split; [|split]].
  - destruct (isHookPayloadOf_total (VString "stop") stop empty_world)
      as (_ & H & _). apply H. discriminate.
  - destruct (isHookPayloadOf_total VNull stop empty_world)
      as (_ & _ & H & _). apply H. reflexivity.
  - destruct (isHookPayloadOf_total (VArray [VString "stop"]) stop empty_world)
      as (_ & _ & _ & H & _). apply (H [VString "stop"]). reflexivity.
  - destruct (isHookPayloadOf_total (VObject {[ "status" := VString "completed" ]})
                stop empty_world) as (_ & _ & _ & _ & H). apply H. reflexivity.
Defined.

(** C3. [isHookPayloadOf value event] returns true whenever [value] is an
    object whose [hook_event_name] is [event], whatever its other fields:
    removing any of them or setting it to any value keeps the answer, and
    the object that has the discriminant and nothing else, which is not of
    the event's payload type, is accepted. *)
Theorem isHookPayloadOf_only_discriminant
    (o : gmap string value) (event : HookEventName) (w : World) :
  o !! "hook_event_name" = Some (VString (event_name event)) →
  isHookPayloadOf (VObject o) event w = (Return true, w) ∧
  (∀ k x, k ≠ "hook_event_name" →
     isHookPayloadOf (VObject (<[k := x]> o)) event w = (Return true, w) ∧
     isHookPayloadOf (VObject (delete k o)) event w = (Return true, w)) ∧
  let bare := VObject {[ "hook_event_name" := VString (event_name event) ]} in
  HookPayloadMap event bare = false ∧
  isHookPayloadOf bare event w = (Return true, w).
Proof.
  intros Hname. rewrite !isHookPayloadOf_run. simpl.
  rewrite Hname. simpl. rewrite String.eqb_refl. split; [done|]. split.
  - intros k x Hk. rewrite !isHookPayloadOf_run. simpl.
    rewrite lookup_insert_ne, lookup_delete_ne, Hname by done.
    simpl. by rewrite String.eqb_refl.
  - rewrite isHookPayloadOf_run. simpl. rewrite lookup_singleton_eq. simpl.
    rewrite String.eqb_refl. split; [|done].
    unfold HookPayloadBase, required. by rewrite lookup_singleton_ne.
Qed.

Lemma isHookPayloadOf_only_discriminant_witness :
  HookPayloadMap beforeReadFile malformed_read_file_payload = false ∧
  isHookPayloadOf malformed_read_file_payload beforeReadFile empty_world
    = (Return true, empty_world).
Proof.
  split; [reflexivity|].
  apply (isHookPayloadOf_only_discriminant
           (<["hook_event_name" := VString "beforeReadFile"]>
            (<["content" := VNumber 42]> ∅)) beforeReadFile empty_world).
  reflexivity.
Defined.

(** C7. Discrimination is pure and deterministic: in whatever worlds two
    invocations on the same arguments run, they return the same boolean
    and leave the world as they found it; so does a second invocation that
    follows a first one. *)
Theorem isHookPayloadOf_pure (v : value) (E : HookEventName) (w w' : World) :
  ∃ b : bool,
    isHookPayloadOf v E w = (Return b, w) ∧
    isHookPayloadOf v E w' = (Return b, w') ∧
    (b1 ← isHookPayloadOf v E; b2 ← isHookPayloadOf v E; mret (b1, b2)) w
      = (Return (b, b), w).
Proof.
  exists (discriminates v E). rewrite !isHookPayloadOf_run.
  split; [done|]. split; [done|].
  unfold mbind, Js_bind, bind. by rewrite !isHookPayloadOf_run.
Qed.

(** C9. No value is accepted as a payload of two distinct events. *)
Theorem isHookPayloadOf_exclusive (v : value) (E1 E2 : HookEventName) (w1 w2 : World) :
  fst (isHookPayloadOf v E1 w1) = Return true →
  fst (isHookPayloadOf v E2 w2) = Return true →
  E1 = E2.
Proof.
  rewrite !isHookPayloadOf_run. simpl. intros [= H1] [= H2].
  destruct v as [| | | | | | |o]; try discriminate.
  simpl in *. destruct (o !! "hook_event_name") as [name|]; [|discriminate].
  apply strict_equals_string_true in H1, H2.
  apply event_name_inj. congruence.
Qed.

Lemma isHookPayloadOf_exclusive_witness :
  fst (isHookPayloadOf read_file_payload beforeReadFile empty_world) = Return true ∧
  beforeReadFile = beforeReadFile.
Proof.
  split; [reflexivity|].
  apply (isHookPayloadOf_exclusive read_file_payload beforeReadFile beforeReadFile
           empty_world empty_world); reflexivity.
Defined.

(** C10. For two non-null objects whose [hook_event_name] fields are the
    same (both absent, or both present and equal), [isHookPayloadOf]
    returns the same boolean, for every event: no other field of the input
    has an influence. *)
Theorem isHookPayloadOf_noninterference
    (v1 v2 : value) (E : HookEventName) (w : World) :
  typeof v1 = "object" → v1 ≠ VNull →
  typeof v2 = "object" → v2 ≠ VNull →
  own_property v1 "hook_event_name" = own_property v2 "hook_event_name" →
  isHookPayloadOf v1 E w = isHookPayloadOf v2 E w.
Proof.
  intros Ht1 Hn1 Ht2 Hn2 Hsame.
  rewrite !isHookPayloadOf_run, !discriminates_own_property, Ht1, Ht2, Hsame.
  by destruct v1, v2.
Qed.

Lemma isHookPayloadOf_noninterference_witness :
  isHookPayloadOf read_file_payload beforeReadFile empty_world
  = isHookPayloadOf malformed_read_file_payload beforeReadFile empty_world.
Proof.
  apply (isHookPayloadOf_noninterference read_file_payload
           malformed_read_file_payload beforeReadFile empty_world);
    first [ reflexivity | discriminate ].
Defined.

(** ** The response shapes *)

Lemma mem_In k ks : mem k ks = true ↔ In k ks.
Proof.
  unfold mem. rewrite existsb_exists. split.
  - intros (x & Hx & Heq). apply String.eqb_eq in Heq. by subst.
  - intros Hk. exists k. by rewrite String.eqb_refl.
Qed.

Lemma is_literal_true ls v :
  is_literal ls v = true ↔ ∃ s, v = VString s ∧ In s ls.
Proof.
  destruct v; simpl; try (split; [discriminate | by intros (? & [=] & _)]).
  rewrite mem_In. split; [eauto | by intros (? & [= ->] & ?)].
Qed.

Lemma required_true p o k :
  required p o k = true ↔ ∃ v, o !! k = Some v ∧ p v = true.
Proof.
  unfold required. destruct (o !! k) as [v|].
  - split; [eauto | by intros (? & [= ->] & ?)].
  - split; [discriminate | by intros (? & [=] & _)].
Qed.

Lemma admits_permission_literal E ls p :
  (∀ r, HookResponseMap E r = true →
        ∃ o, r = VObject o ∧ required (is_literal ls) o "permission" = true) →
  (∀ s, In s ls → HookResponseMap E (VObject {[ "permission" := VString s ]}) = true) →
  admits_permission E p ↔ ∃ s, p = VString s ∧ In s ls.
Proof.
  intros Hshape Hbare. split.
  - intros (r & Hr & Hp). apply Hshape in Hr as (o & -> & Hreq).
    apply required_true in Hreq as (v & Hv & Hlit). simpl in Hp.
    apply is_literal_true. congruence.
  - intros (s & -> & Hs). exists (VObject {[ "permission" := VString s ]}).
    split; [by apply Hbare|]. simpl. by rewrite lookup_singleton_eq.
Qed.

Lemma HookPermissionResponse_shape r :
  HookPermissionResponse r = true →
  ∃ o, r = VObject o ∧ required (is_literal HookPermission) o "permission" = true.
Proof.
  destruct r as [| | | | | | |o]; try discriminate. simpl.
  intros H. exists o. split; [done|].
  by destruct (required (is_literal HookPermission) o "permission").
Qed.

Lemma HookPermissionResponse_bare s :
  In s HookPermission →
  HookPermissionResponse (VObject {[ "permission" := VString s ]}) = true.
Proof.
  intros Hs. apply mem_In in Hs.
  unfold HookPermissionResponse, is_interface, required, optional.
  rewrite lookup_singleton_eq, !lookup_singleton_ne by done.
  unfold is_literal. by rewrite Hs.
Qed.

(** C4. A [beforeReadFile] response admits exactly the permissions allow
    and deny (ask is not one of them); the responses of
    [beforeShellExecution] and [beforeMCPExecution] admit exactly allow,
    deny and ask. *)
Theorem response_permissions (p : value) :
  (admits_permission beforeReadFile p ↔
     p = VString "allow" ∨ p = VString "deny") ∧
  ¬ admits_permission beforeReadFile (VString "ask") ∧
  (admits_permission beforeShellExecution p ↔
     p = VString "allow" ∨ p = VString "deny" ∨ p = VString "ask") ∧
  (admits_permission beforeMCPExecution p ↔
     p = VString "allow" ∨ p = VString "deny" ∨ p = VString "ask").
Proof.
  assert (Hread : ∀ q, admits_permission beforeReadFile q ↔
                       ∃ s, q = VString s ∧ In s ["allow"; "deny"]).
  { intros q. apply admits_permission_literal.
    - intros [| | | | | | |o]; try discriminate. simpl. eauto.
    - intros s Hs. apply mem_In in Hs.
      unfold HookResponseMap, BeforeReadFileResponse, is_interface, required.
      rewrite lookup_singleton_eq. unfold is_literal. by rewrite Hs. }
  assert (Hperm : ∀ E q, HookResponseMap E = HookPermissionResponse →
            (admits_permission E q ↔ ∃ s, q = VString s ∧ In s HookPermission)).
  { intros E q HE. apply admits_permission_literal; rewrite HE.
    - apply HookPermissionResponse_shape.
    - apply HookPermissionResponse_bare. }
  split; [|split; [|split]].
  - rewrite Hread. literal_cases.
  - rewrite Hread. intros (s & [= <-] & Hs). simpl in Hs.
    by repeat destruct Hs as [Hs|Hs].
  - rewrite Hperm by done. literal_cases.
  - rewrite Hperm by done. literal_cases.
Qed.

(** ** hooks.json *)

Lemma validateConfig_true config :
  validateConfig config = true →
  ∃ o version hooks,
    config = VObject o ∧
    o !! "version" = Some (VNumber version) ∧ (version == 1)%Q ∧
    o !! "hooks" = Some (VObject hooks) ∧
    map_Forall (λ key entries,
      is_Some (event_of_name key) ∧ is_array_of HookCommandConfig entries) hooks.
Proof.
  destruct config as [| | | | | | |o]; try discriminate. simpl.
  destruct (o !! "version") as [[| | |version| | | |]|] eqn:Hv; try discriminate.
  destruct (o !! "hooks") as [[| | | | | | |hooks]|] eqn:Hh; try discriminate.
  intros [Hversion Hhooks]%andb_true_iff.
  exists o, version, hooks.
  apply Qeq_bool_iff in Hversion. apply bool_decide_eq_true in Hhooks.
  by rewrite Hv, Hh.
Qed.

(** C5. A registration file is accepted only when its version is the
    number 1: with any other version value it is rejected. *)
Theorem validateConfig_version (config : value) :
  (validateConfig config = true →
   ∃ version, own_property config "version" = Some (VNumber version) ∧
              (version == 1)%Q) ∧
  (∀ v, own_property config "version" = Some v →
        (∀ version, v = VNumber version → ¬ (version == 1)%Q) →
        validateConfig config = false).
Proof.
  split.
  - intros (o & version & hooks & -> & Hversion & Hone & _)%validateConfig_true.
    exists version. by split.
  - intros v Hv Hother. apply not_true_is_false.
    intros (o & version & hooks & -> & Hversion & Hone & _)%validateConfig_true.
    simpl in Hv. rewrite Hversion in Hv. injection Hv as <-.
    by apply (Hother version).
Qed.

Lemma validateConfig_version_witness :
  (∃ version, own_property readme_config "version" = Some (VNumber version) ∧
              (version == 1)%Q) ∧
  validateConfig scenario_C_config = false.
Proof.
  split.
  - apply (validateConfig_version readme_config). reflexivity.
  - apply (validateConfig_version scenario_C_config) with (v := VNumber 2).
    + reflexivity.
    + intros version [= <-]. discriminate.
Defined.

(** C6. A registration file whose [hooks] mapping has a key that is not
    one of the six event names is rejected, whatever the rest of the
    file. *)
Theorem validateConfig_unknown_event
    (config : value) (hooks : gmap string value) (key : string) :
  own_property config "hooks" = Some (VObject hooks) →
  is_Some (hooks !! key) →
  event_of_name key = None →
  validateConfig config = false.
Proof.
  intros Hhooks [entries Hkey] Hunknown. apply not_true_is_false.
  intros (o & version & hooks' & -> & _ & _ & Hhooks' & Hall)%validateConfig_true.
  simpl in Hhooks. rewrite Hhooks' in Hhooks. injection Hhooks as ->.
  destruct (Hall key entries Hkey) as [[e He] _]. congruence.
Qed.

Lemma validateConfig_unknown_event_witness :
  validateConfig scenario_E_config = false.
Proof.
  apply (validateConfig_unknown_event scenario_E_config
           (<["beforeReadFile" :=
                VArray [VObject {[ "command" := VString "./x.sh" ]}]]>
            (<["notAnEvent" := VArray []]> ∅)) "notAnEvent").
  - reflexivity.
  - exists (VArray []). reflexivity.
  - reflexivity.
Defined.

(** ** The handler table *)

Section ScriptProperties.

Variable Number_toString : Q → string.
Variable Function_toString : string → string.
Variable JSON_stringify : value → string.
Variable Object_prototype_call : string → value → Js value.

Lemma event_name_not_inherited E : mem (event_name E) Object_prototype_keys = false.
Proof. destruct E; reflexivity. Qed.

Lemma handler_lookup_event (table : gmap string HookHandler) (E : HookEventName) :
  handler_lookup Object_prototype_call table (event_name E)
  = table !! event_name E.
Proof.
  unfold handler_lookup. rewrite event_name_not_inherited.
  by destruct (table !! event_name E).
Qed.

(** C8. When the table has no handler for the event a payload names,
    dispatching the payload is the no-handler failure: the diagnostic
    goes to the error channel and the process exits with status 1;
    nothing is written to the response channel and no handler is
    invoked. *)
Theorem dispatch_no_handler
    (table : gmap string HookHandler) (payload : value)
    (E : HookEventName) (w : World) :
  own_property payload "hook_event_name" = Some (VString (event_name E)) →
  table !! event_name E = None →
  dispatch Number_toString Function_toString JSON_stringify
           Object_prototype_call table payload w
  = (Exit 1, mkWorld (stdout w)
                     (stderr w ++ ["No handler for " ++ event_name E])
                     (invoked w)).
Proof.
  intros Hname Hnone.
  assert (Hget : get_property payload "hook_event_name"
                 = mret (VString (event_name E))).
  { unfold get_property. rewrite Hname. by destruct payload. }
  unfold dispatch. rewrite Hget.
  unfold mbind, Js_bind, bind, mret, Js_ret, ret. simpl.
  rewrite handler_lookup_event, Hnone. reflexivity.
Qed.

(** A payload that names a registered event goes to the handler
    registered under that name, and to no other. *)
Lemma dispatch_registered
    (table : gmap string HookHandler) (payload : value)
    (E : HookEventName) (h : HookHandler) (w : World) :
  own_property payload "hook_event_name" = Some (VString (event_name E)) →
  table !! event_name E = Some h →
  dispatch Number_toString Function_toString JSON_stringify
           Object_prototype_call table payload w
  = (response ← invoke (event_name E) h payload;
     if is_void response then mret tt
     else console_log (JSON_stringify response)) w.
Proof.
  intros Hname Hsome.
  assert (Hget : get_property payload "hook_event_name"
                 = mret (VString (event_name E))).
  { unfold get_property. rewrite Hname. by destruct payload. }
  unfold dispatch. rewrite Hget.
  unfold mbind at 1. unfold Js_bind, bind, mret, Js_ret, ret. simpl.
  by rewrite handler_lookup_event, Hsome.
Qed.

Variables handleBeforeShellExecution handleAfterFileEdit
          handleBeforeReadFile handleBeforeSubmitPrompt : HookHandler.

(** The table of the README has a handler for each of the six events. *)
Lemma handlers_complete (E : HookEventName) :
  is_Some (handlers Number_toString Function_toString
             handleBeforeShellExecution handleAfterFileEdit
             handleBeforeReadFile handleBeforeSubmitPrompt !! event_name E).
Proof. destruct E; vm_compute; eauto. Qed.

(** Scenario B: a stop payload goes to [handleStop], which reports on the
    error channel and returns nothing; the script prints no response and
    does not fail. *)
Lemma dispatch_stop :
  dispatch Number_toString Function_toString JSON_stringify Object_prototype_call
    (handlers Number_toString Function_toString
       handleBeforeShellExecution handleAfterFileEdit
       handleBeforeReadFile handleBeforeSubmitPrompt)
    stop_payload empty_world
  = (Return tt, mkWorld [] ["Agent finished with status: completed"] ["stop"]).
Proof. reflexivity. Qed.

(** A payload without the discriminant fails as well. *)
Lemma dispatch_no_discriminant (table : gmap string HookHandler) :
  table !! "undefined" = None →
  dispatch Number_toString Function_toString JSON_stringify Object_prototype_call
    table (VObject ∅) empty_world
  = (Exit 1, mkWorld [] ["No handler for undefined"] []).
Proof.
  intros Hnone. unfold dispatch, mbind, Js_bind, bind.
  change (get_property (VObject ∅) "hook_event_name" empty_world)
    with (Return VUndefined, empty_world).
  cbv beta iota. unfold handler_lookup. cbn [ToString].
  by rewrite Hnone.
Qed.

(** [null] has no properties: reading the discriminant throws. *)
Lemma dispatch_null (table : gmap string HookHandler) (w : World) :
  ∃ e, dispatch Number_toString Function_toString JSON_stringify
         Object_prototype_call table VNull w = (Throw e, w).
Proof. eexists. reflexivity. Qed.

(** The event names matter: for a name that [Object.prototype] defines, the
    lookup finds the inherited member, and the script calls it. *)
Lemma dispatch_inherited_member (w : World) :
  dispatch Number_toString Function_toString JSON_stringify Object_prototype_call
    ∅ toString_payload w
  = (response ← invoke "toString" (Object_prototype_call "toString") toString_payload;
     if is_void response then mret tt
     else console_log (JSON_stringify response)) w.
Proof. reflexivity. Qed.

End ScriptProperties.

Lemma dispatch_no_handler_witness :
  dispatch (λ _, "0") (λ f, f) (λ _, "{}") (λ _ _, mret VUndefined)
    stop_only_table read_file_payload empty_world
  = (Exit 1, mkWorld [] ["No handler for beforeReadFile"] []).
Proof.
  apply (dispatch_no_handler (λ _, "0") (λ f, f) (λ _, "{}") (λ _ _, mret VUndefined)
           stop_only_table read_file_payload beforeReadFile empty_world);
    reflexivity.
Defined.

(** * Further properties: the README handlers and scripts *)

(** ** Strings *)

Lemma prefix_spec n s : String.prefix n s = true ↔ ∃ b, s = n ++ b.
Proof.
  revert s. induction n as [|c n IH]; intros [|d s]; simpl;
    try (split; [eauto; discriminate | eauto; by intros [? [=]]]).
  destruct (Ascii.ascii_dec c d) as [->|Hne].
  - rewrite IH. split; [intros [b ->]; eauto | intros [b [= ->]]; eauto].
  - split; [discriminate | intros [b [= ? ?]]; congruence].
Qed.

Lemma includes_spec n s : includes n s = true ↔ ∃ a b, s = a ++ n ++ b.
Proof.
  induction s as [|c s IH]; cbn [includes].
  - rewrite orb_false_r, prefix_spec. split.
    + intros [b Hb]. by exists "", b.
    + intros (a & b & H). destruct a; [eauto | discriminate].
  - rewrite orb_true_iff, prefix_spec, IH. split.
    + intros [[b Hb] | (a & b & ->)]; [by exists "", b | by exists (String c a), b].
    + intros ([|d a] & b & H); [left; eauto | right]. injection H as -> ->. eauto.
Qed.

Lemma length_letters n : String.length (letters n) = n.
Proof. induction n; simpl; congruence. Qed.

(** ** Running a guarded handler *)

Lemma discriminates_accepted o E :
  o !! "hook_event_name" = Some (VString (event_name E)) →
  discriminates (VObject o) E = true.
Proof. intros H. simpl. rewrite H. simpl. apply String.eqb_refl. Qed.

Lemma discriminates_true v E :
  discriminates v E = true →
  ∃ o, v = VObject o ∧ o !! "hook_event_name" = Some (VString (event_name E)).
Proof.
  destruct v as [| | | | | | |o]; try discriminate. simpl.
  destruct (o !! "hook_event_name") as [name|] eqn:Hname; [|discriminate].
  intros ->%strict_equals_string_true. eauto.
Qed.

Lemma guarded_run {A} (payload : value) (E : HookEventName) (e : exn) (k : Js A) w :
  (ok ← isHookPayloadOf payload E; if negb ok then throw e else k) w
  = if discriminates payload E then k w else (Throw e, w).
Proof.
  unfold mbind, Js_bind, bind. rewrite isHookPayloadOf_run.
  by destruct (discriminates payload E).
Qed.

Lemma guarded_run_exit {A} (payload : value) (E : HookEventName)
    (reject k : Js A) w :
  (ok ← isHookPayloadOf payload E; if negb ok then reject else k) w
  = if discriminates payload E then k w else reject w.
Proof.
  unfold mbind, Js_bind, bind. rewrite isHookPayloadOf_run.
  by destruct (discriminates payload E).
Qed.

Lemma get_property_field o k w :
  mem k Object_prototype_keys = false →
  get_property (VObject o) k w = (Return (field o k), w).
Proof.
  intros Hk. unfold get_property, field. cbn [own_property inherits].
  rewrite Hk. by destruct (o !! k).
Qed.

(** ** The payload types and the guard *)

(** X1. A value of the payload type of an event is accepted by the guard
    for that event and for no other, and has the payload type of no other
    event. *)
Theorem HookPayloadMap_accepted (v : value) (E : HookEventName) (w : World) :
  HookPayloadMap E v = true →
  isHookPayloadOf v E w = (Return true, w) ∧
  ∀ E2, E2 ≠ E →
    isHookPayloadOf v E2 w = (Return false, w) ∧ HookPayloadMap E2 v = false.
Proof.
  destruct v as [| | | | | | |o]; try discriminate.
  unfold HookPayloadMap at 1. cbn [is_interface].
  intros [[_ Hname]%andb_true_iff _]%andb_true_iff.
  apply required_true in Hname as (name & Hname & Hlit).
  apply is_literal_true in Hlit as (s & -> & [<-|[]]).
  rewrite !isHookPayloadOf_run, discriminates_accepted by done.
  split; [done|]. intros E2 Hne.
  assert (Hno : discriminates (VObject o) E2 = false).
  { simpl. rewrite Hname. simpl. rewrite event_name_eqb.
    by apply bool_decide_eq_false_2. }
  rewrite isHookPayloadOf_run, Hno. split; [done|].
  apply not_true_is_false. unfold HookPayloadMap. cbn [is_interface].
  intros [[_ Hname2]%andb_true_iff _]%andb_true_iff.
  apply required_true in Hname2 as (name2 & Hname2 & Hlit2).
  apply is_literal_true in Hlit2 as (s & -> & [<-|[]]).
  apply Hne, event_name_inj. congruence.
Qed.

Lemma HookPayloadMap_accepted_witness :
  isHookPayloadOf read_file_payload beforeReadFile empty_world
    = (Return true, empty_world) ∧
  HookPayloadMap stop read_file_payload = false.
Proof.
  destruct (HookPayloadMap_accepted read_file_payload beforeReadFile empty_world)
    as [Hyes Hno]; [reflexivity|].
  split; [exact Hyes|]. apply (Hno stop). discriminate.
Defined.

(** ** The handler templates *)

Section TemplateProperties.

Set Default Proof Using "Type".

Variable Number_toString : Q → string.
Variable Function_toString : string → string.
Variable String_toNumber : string → option Q.
Variable call_function : string → value → list value → Js value.
Variable console_format : string → value → string.
Variable JSON_stringify : value → string.
Variable JSON_stringify_indented : value → string.
Variable Object_prototype_call : string → value → Js value.

Lemma readme_handlers_lookup (E : HookEventName) :
  readme_handlers Number_toString Function_toString String_toNumber
    call_function console_format !! event_name E
  = Some (handler_of Number_toString Function_toString String_toNumber
            call_function console_format E).
Proof. by destruct E. Qed.

Lemma call_includes_string (s needle : string) (w : World) :
  call_includes call_function (VString s) needle w
  = (Return (VBoolean (includes needle s)), w).
Proof. reflexivity. Qed.

Lemma call_startsWith_string (s start : string) (w : World) :
  call_startsWith call_function (VString s) start w
  = (Return (VBoolean (String.prefix start s)), w).
Proof. reflexivity. Qed.

(** X2. Each handler of the README table turns down what is not a payload
    of its own event: when the guard rejects the value for the event the
    handler is registered under, the handler throws "Invalid <event>
    payload" and has no other effect. *)
Theorem readme_handlers_reject
    (E : HookEventName) (h : HookHandler) (v : value) (w : World) :
  readme_handlers Number_toString Function_toString String_toNumber
    call_function console_format !! event_name E = Some h →
  fst (isHookPayloadOf v E w) = Return false →
  h v w = (Throw (Error ("Invalid " ++ event_name E ++ " payload")), w).
Proof.
  rewrite readme_handlers_lookup, isHookPayloadOf_run. simpl.
  intros [= <-] [= Hno].
  destruct E; cbv beta delta [handler_of handleBeforeShellExecution
    handleBeforeMCPExecution handleAfterFileEdit handleBeforeReadFile
    handleBeforeSubmitPrompt handleStop] iota;
    by rewrite guarded_run, Hno.
Qed.

Ltac run_guarded Hname :=
  cbv beta delta [handler_of handleBeforeShellExecution
    handleBeforeMCPExecution handleAfterFileEdit handleBeforeReadFile
    handleBeforeSubmitPrompt handleStop] iota;
  rewrite guarded_run, (discriminates_accepted _ _ Hname);
  unfold mbind, Js_bind, bind;
  rewrite ?get_property_field by reflexivity.

(** X3. For a [beforeShellExecution] payload whose [command] is a string,
    [handleBeforeShellExecution] returns the deny response with its two
    messages when the command contains "rm -rf", and [{permission:
    "allow"}] when it does not; it has no effect on the world. *)
Theorem handleBeforeShellExecution_decision
    (o : gmap string value) (command : string) (w : World) :
  o !! "hook_event_name" = Some (VString (event_name beforeShellExecution)) →
  o !! "command" = Some (VString command) →
  ∃ r, handleBeforeShellExecution call_function (VObject o) w = (Return r, w) ∧
       ((∃ a b, command = a ++ "rm -rf" ++ b) → r = blocked_response) ∧
       (¬ (∃ a b, command = a ++ "rm -rf" ++ b) → r = permission_response "allow").
Proof.
  intros Hname Hcommand. run_guarded Hname.
  unfold field. rewrite Hcommand. cbv beta iota.
  rewrite call_includes_string. cbn [ToBoolean].
  destruct (includes "rm -rf" command) eqn:Hinc; eexists; (split; [reflexivity|]).
  - split; [done|]. intros Hnot. by apply includes_spec in Hinc.
  - split; [|done]. intros Hyes%includes_spec. congruence.
Qed.

(** X4. For a [beforeReadFile] payload whose [content] is a string,
    [handleBeforeReadFile] denies exactly when the content contains
    "API_KEY" and allows otherwise; it has no effect on the world. *)
Theorem handleBeforeReadFile_decision
    (o : gmap string value) (content : string) (w : World) :
  o !! "hook_event_name" = Some (VString (event_name beforeReadFile)) →
  o !! "content" = Some (VString content) →
  ∃ r, handleBeforeReadFile call_function (VObject o) w = (Return r, w) ∧
       ((∃ a b, content = a ++ "API_KEY" ++ b) → r = permission_response "deny") ∧
       (¬ (∃ a b, content = a ++ "API_KEY" ++ b) → r = permission_response "allow").
Proof.
  intros Hname Hcontent. run_guarded Hname.
  unfold field. rewrite Hcontent. cbv beta iota.
  rewrite call_includes_string. cbn [ToBoolean].
  destruct (includes "API_KEY" content) eqn:Hinc; eexists; (split; [reflexivity|]).
  - split; [done|]. intros Hnot. by apply includes_spec in Hinc.
  - split; [|done]. intros Hyes%includes_spec. congruence.
Qed.

(** X5. [handleBeforeMCPExecution] never throws on a payload the guard
    accepts and never denies: it asks for confirmation exactly when
    [tool_name] is the string "dangerousTool", and allows otherwise, also
    when [tool_name] is missing or not a string. *)
Theorem handleBeforeMCPExecution_decision (o : gmap string value) (w : World) :
  o !! "hook_event_name" = Some (VString (event_name beforeMCPExecution)) →
  ∃ r, handleBeforeMCPExecution (VObject o) w = (Return r, w) ∧
       (o !! "tool_name" = Some (VString "dangerousTool") → r = confirm_response) ∧
       (o !! "tool_name" ≠ Some (VString "dangerousTool") →
        r = permission_response "allow").
Proof.
  intros Hname. run_guarded Hname.
  destruct (strict_equals_string (field o "tool_name") "dangerousTool") eqn:Htool;
    eexists; (split; [reflexivity|]).
  - split; [done|]. intros Hnot. apply strict_equals_string_true in Htool.
    unfold field in Htool. destruct (o !! "tool_name"); simpl in Htool; congruence.
  - split; [|done]. intros Hyes. unfold field in Htool. rewrite Hyes in Htool.
    discriminate.
Qed.




(** X8. Acceptance by the guard does not protect the field a handler
    reads: a payload the guard accepts whose [command] (shell execution),
    [edits] (file edit), [content] (file read) or [prompt] (prompt
    submission) is missing or null makes the handler of the README table
    throw a [TypeError], with no other effect. *)
Theorem readme_handlers_missing_field
    (E : HookEventName) (k : string) (h : HookHandler)
    (o : gmap string value) (w : World) :
  In (E, k) [ (beforeShellExecution, "command"); (afterFileEdit, "edits");
              (beforeReadFile, "content"); (beforeSubmitPrompt, "prompt") ] →
  readme_handlers Number_toString Function_toString String_toNumber
    call_function console_format !! event_name E = Some h →
  o !! "hook_event_name" = Some (VString (event_name E)) →
  o !! k = None ∨ o !! k = Some VNull →
  ∃ message, h (VObject o) w = (Throw (TypeError message), w).
Proof.
  rewrite readme_handlers_lookup. intros Hin [= <-] Hname Hk.
  assert (Hfield : field o k = VUndefined ∨ field o k = VNull).
  { unfold field. destruct Hk as [-> | ->]; auto. }
  simpl in Hin.
  destruct Hin as [[= <- <-]|[[= <- <-]|[[= <- <-]|[[= <- <-]|[]]]]];
    run_guarded Hname; destruct Hfield as [-> | ->]; eexists; reflexivity.
Qed.


Lemma handler_of_response_type
    (E : HookEventName) (v r : value) (w w' : World) :
  handler_of Number_toString Function_toString String_toNumber
    call_function console_format E v w = (Return r, w') →
  HookResponseMap E r = true.
Proof.
  destruct E;
    cbv beta delta [handler_of handleBeforeShellExecution
      handleBeforeMCPExecution handleAfterFileEdit handleBeforeReadFile
      handleBeforeSubmitPrompt handleStop] iota;
    rewrite guarded_run;
    (destruct (discriminates v _); [|discriminate]);
    unfold mbind, Js_bind, bind.
  - destruct (get_property v "command" w) as [[c|?|?] w1]; try discriminate.
    destruct (call_includes _ c _ w1) as [[d|?|?] w2]; try discriminate.
    by destruct (ToBoolean d); intros [= <- <-].
  - destruct (get_property v "tool_name" w) as [[t|?|?] w1]; try discriminate.
    by destruct (strict_equals_string t _); intros [= <- <-].
  - destruct (get_property v "edits" w) as [[x|?|?] w1]; try discriminate.
    destruct (iterate x w1) as [[l|?|?] w2]; try discriminate.
    destruct (for_each l _ w2) as [[[]|?|?] w3]; try discriminate.
    by intros [= <- <-].
  - destruct (get_property v "content" w) as [[c|?|?] w1]; try discriminate.
    destruct (call_includes _ c _ w1) as [[d|?|?] w2]; try discriminate.
    by destruct (ToBoolean d); intros [= <- <-].
  - destruct (get_property v "prompt" w) as [[p|?|?] w1]; try discriminate.
    destruct (get_property p "length" w1) as [[n|?|?] w2]; try discriminate.
    by destruct (greater_than _ _ _ n _); intros [= <- <-].
  - destruct (get_property v "status" w) as [[x|?|?] w1]; try discriminate.
    by intros [= <- <-].
Qed.

(** X10. Whatever a handler of the README table returns has the response
    type of the event the handler is registered under, for every input and
    every world. *)
Theorem readme_handlers_response_type
    (E : HookEventName) (h : HookHandler) (v r : value) (w w' : World) :
  readme_handlers Number_toString Function_toString String_toNumber
    call_function console_format !! event_name E = Some h →
  h v w = (Return r, w') →
  HookResponseMap E r = true.
Proof.
  rewrite readme_handlers_lookup. intros [= <-]. apply handler_of_response_type.
Qed.

(** ** The script over the README table *)

Lemma handleBeforeShellExecution_run
    (o : gmap string value) (command : string) (w : World) :
  o !! "hook_event_name" = Some (VString (event_name beforeShellExecution)) →
  o !! "command" = Some (VString command) →
  handleBeforeShellExecution call_function (VObject o) w
  = (Return (if includes "rm -rf" command
             then blocked_response else permission_response "allow"), w).
Proof.
  intros Hname Hcommand. run_guarded Hname.
  unfold field. rewrite Hcommand. cbv beta iota.
  rewrite call_includes_string. cbn [ToBoolean].
  by destruct (includes "rm -rf" command).
Qed.

(** X11. What the script does with a registered handler is decided by how
    the handler ends: a response other than [undefined] is printed, once,
    after whatever the handler wrote; [undefined] prints nothing; a throw
    or an exit of the handler ends the script the same way, nothing is
    printed and nothing is caught. *)
Theorem dispatch_outcome
    (table : gmap string HookHandler) (payload : value)
    (k : string) (h : HookHandler) (w : World) :
  own_property payload "hook_event_name" = Some (VString k) →
  table !! k = Some h →
  dispatch Number_toString Function_toString JSON_stringify
           Object_prototype_call table payload w
  = match h payload (mkWorld (stdout w) (stderr w) (invoked w ++ [k])) with
    | (Return r, w') =>
        (Return tt,
         if is_void r then w'
         else mkWorld (stdout w' ++ [JSON_stringify r]) (stderr w') (invoked w'))
    | (Throw e, w') => (Throw e, w')
    | (Exit c, w') => (Exit c, w')
    end.
Proof.
  intros Hname Hsome.
  assert (Hget : get_property payload "hook_event_name" = mret (VString k)).
  { unfold get_property. rewrite Hname. by destruct payload. }
  unfold dispatch. rewrite Hget.
  unfold mbind, Js_bind, bind, mret, Js_ret, ret. cbn [ToString].
  unfold handler_lookup. rewrite Hsome. unfold invoke.
  destruct (h payload _) as [[r|e|c] w']; [|done..].
  by destruct (is_void r).
Qed.

(** X12. Scenario A for every command: with the README table, a
    [beforeShellExecution] payload whose [command] is a string is routed to
    [handleBeforeShellExecution] alone, and exactly one response is
    printed: the deny response when the command contains "rm -rf", the
    allow response when it does not. *)
Theorem dispatch_shell_execution
    (o : gmap string value) (command : string) (w : World) :
  o !! "hook_event_name" = Some (VString (event_name beforeShellExecution)) →
  o !! "command" = Some (VString command) →
  ∃ r, dispatch Number_toString Function_toString JSON_stringify
         Object_prototype_call
         (readme_handlers Number_toString Function_toString String_toNumber
            call_function console_format)
         (VObject o) w
       = (Return tt,
          mkWorld (stdout w ++ [JSON_stringify r]) (stderr w)
                  (invoked w ++ ["beforeShellExecution"])) ∧
       ((∃ a b, command = a ++ "rm -rf" ++ b) → r = blocked_response) ∧
       (¬ (∃ a b, command = a ++ "rm -rf" ++ b) → r = permission_response "allow").
Proof.
  intros Hname Hcommand.
  rewrite (dispatch_registered _ _ _ _ _ (VObject o) beforeShellExecution
             _ _ Hname (readme_handlers_lookup beforeShellExecution)).
  unfold mbind, Js_bind, bind, invoke. cbn [handler_of].
  rewrite (handleBeforeShellExecution_run o command _ Hname Hcommand).
  destruct (includes "rm -rf" command) eqn:Hinc; eexists; (split; [reflexivity|]).
  - split; [done|]. intros Hnot. by apply includes_spec in Hinc.
  - split; [|done]. intros Hyes%includes_spec. congruence.
Qed.


(** X14. The no-handler exit is not reached for a name that
    [Object.prototype] defines ("toString", "constructor", ...): when the
    table has no entry of its own under that name, the lookup finds the
    inherited member and the script calls it with the payload. *)
Theorem dispatch_inherited
    (table : gmap string HookHandler) (payload : value) (k : string) (w : World) :
  In k Object_prototype_keys →
  own_property payload "hook_event_name" = Some (VString k) →
  table !! k = None →
  dispatch Number_toString Function_toString JSON_stringify
           Object_prototype_call table payload w
  = match Object_prototype_call k payload
            (mkWorld (stdout w) (stderr w) (invoked w ++ [k])) with
    | (Return r, w') =>
        (Return tt,
         if is_void r then w'
         else mkWorld (stdout w' ++ [JSON_stringify r]) (stderr w') (invoked w'))
    | (Throw e, w') => (Throw e, w')
    | (Exit c, w') => (Exit c, w')
    end.
Proof.
  intros Hk%mem_In Hname Hnone.
  assert (Hget : get_property payload "hook_event_name" = mret (VString k)).
  { unfold get_property. rewrite Hname. by destruct payload. }
  unfold dispatch. rewrite Hget.
  unfold mbind, Js_bind, bind, mret, Js_ret, ret. cbn [ToString].
  unfold handler_lookup. rewrite Hnone, Hk. unfold invoke.
  destruct (Object_prototype_call k payload _) as [[r|e|c] w']; [|done..].
  by destruct (is_void r).
Qed.

(** X15. A payload without a discriminant: for [null] and [undefined] the
    script throws a [TypeError] before it looks at the table; for any
    other value that has no [hook_event_name] it takes the no-handler
    exit, naming "undefined", unless the table has an entry under
    "undefined". *)
Theorem dispatch_without_discriminant
    (table : gmap string HookHandler) (payload : value) (w : World) :
  table !! "undefined" = None →
  own_property payload "hook_event_name" = None →
  match payload with
  | VUndefined | VNull =>
      ∃ message,
        dispatch Number_toString Function_toString JSON_stringify
          Object_prototype_call table payload w = (Throw (TypeError message), w)
  | _ =>
      dispatch Number_toString Function_toString JSON_stringify
        Object_prototype_call table payload w
      = (Exit 1, mkWorld (stdout w) (stderr w ++ ["No handler for undefined"])
                         (invoked w))
  end.
Proof.
  intros Hnone Hname.
  assert (Hrun : ∀ p, p = payload → not_null p = true → p ≠ VUndefined →
    dispatch Number_toString Function_toString JSON_stringify
      Object_prototype_call table p w
    = (Exit 1, mkWorld (stdout w) (stderr w ++ ["No handler for undefined"])
                       (invoked w))).
  { intros p -> Hnn Hnu.
    assert (Hget : get_property payload "hook_event_name" = mret VUndefined).
    { unfold get_property. rewrite Hname, inherits_discriminant.
      by destruct payload. }
    unfold dispatch. rewrite Hget.
    unfold mbind, Js_bind, bind, mret, Js_ret, ret. cbn [ToString].
    unfold handler_lookup. by rewrite Hnone. }
  destruct payload; try (by apply Hrun); by eexists.
Qed.

Lemma response_type_is_void (E : HookEventName) (r : value) :
  HookResponseMap E r = true → is_void r = is_notification E.
Proof. destruct E, r; simpl; congruence. Qed.

(** X18. With the README table a request event always gets an answer and a
    notification never does: for a payload of event [E], when the handler
    returns, the script prints its response, once, if [E] is one of the
    four request events, and prints nothing if [E] is [afterFileEdit] or
    [stop]; when the handler throws, so does the script. *)
Theorem dispatch_readme_response
    (E : HookEventName) (h : HookHandler) (o : gmap string value) (w : World) :
  readme_handlers Number_toString Function_toString String_toNumber
    call_function console_format !! event_name E = Some h →
  o !! "hook_event_name" = Some (VString (event_name E)) →
  dispatch Number_toString Function_toString JSON_stringify
    Object_prototype_call
    (readme_handlers Number_toString Function_toString String_toNumber
       call_function console_format)
    (VObject o) w
  = match h (VObject o)
            (mkWorld (stdout w) (stderr w) (invoked w ++ [event_name E])) with
    | (Return r, w') =>
        (Return tt,
         if is_notification E then w'
         else mkWorld (stdout w' ++ [JSON_stringify r]) (stderr w') (invoked w'))
    | (Throw e, w') => (Throw e, w')
    | (Exit c, w') => (Exit c, w')
    end.
Proof.
  intros Hh Hname.
  rewrite (dispatch_registered _ _ _ _ _ (VObject o) E h w Hname Hh).
  unfold mbind, Js_bind, bind, invoke.
  rewrite readme_handlers_lookup in Hh. injection Hh as <-.
  destruct (handler_of _ _ _ _ _ E (VObject o) _) as [[r|e|c] w'] eqn:Hrun;
    [|done..].
  apply handler_of_response_type, response_type_is_void in Hrun.
  rewrite Hrun. by destruct (is_notification E).
Qed.

Lemma readme_handlers_unknown (k : string) :
  event_of_name k = None →
  readme_handlers Number_toString Function_toString String_toNumber
    call_function console_format !! k = None.
Proof.
  intros Hk. unfold event_of_name in Hk.
  assert (Hne : ∀ E, event_name E ≠ k).
  { intros E <-.
    assert (Hin : In E all_events) by (destruct E; simpl; tauto).
    apply (find_none _ _ Hk) in Hin. by rewrite String.eqb_refl in Hin. }
  unfold readme_handlers, handlers.
  rewrite !lookup_insert_ne; [apply lookup_empty|..];
    first [ apply (Hne stop) | apply (Hne beforeSubmitPrompt)
          | apply (Hne beforeReadFile) | apply (Hne afterFileEdit)
          | apply (Hne beforeMCPExecution) | apply (Hne beforeShellExecution) ].
Qed.

(** X19. With the README table, which has a handler for every event, the
    no-handler exit is what a payload gets whose discriminant is a string
    that is neither an event name nor a name [Object.prototype] defines:
    the diagnostic names the string, nothing is printed as a response, no
    handler is invoked, and the exit status is 1. *)
Theorem dispatch_readme_unknown_name
    (payload : value) (k : string) (w : World) :
  own_property payload "hook_event_name" = Some (VString k) →
  event_of_name k = None →
  ¬ In k Object_prototype_keys →
  dispatch Number_toString Function_toString JSON_stringify
    Object_prototype_call
    (readme_handlers Number_toString Function_toString String_toNumber
       call_function console_format)
    payload w
  = (Exit 1, mkWorld (stdout w) (stderr w ++ ["No handler for " ++ k])
                     (invoked w)).
Proof.
  intros Hname Hk Hproto.
  assert (Hget : get_property payload "hook_event_name" = mret (VString k)).
  { unfold get_property. rewrite Hname. by destruct payload. }
  unfold dispatch. rewrite Hget.
  unfold mbind, Js_bind, bind, mret, Js_ret, ret. cbn [ToString].
  unfold handler_lookup. rewrite (readme_handlers_unknown k Hk).
  destruct (mem k Object_prototype_keys) eqn:Hmem; [|done].
  by apply mem_In in Hmem.
Qed.

(** ** The stand-alone scripts *)

(** X16. The quick-start script turns down every input the guard rejects:
    one line on the error channel, nothing on the response channel, exit
    status 1.  For a [beforeShellExecution] payload whose [command] is a
    string it ends normally after printing one response, of the permission
    response type: deny when the command contains "rm -rf", allow when it
    does not. *)
Theorem quick_start_outcome (rawInput : value) (w : World) :
  (fst (isHookPayloadOf rawInput beforeShellExecution w) = Return false →
   quick_start call_function console_format JSON_stringify rawInput w
   = (Exit 1,
      mkWorld (stdout w)
              (stderr w ++ [console_format "Unexpected hook payload" rawInput])
              (invoked w))) ∧
  (∀ command,
     fst (isHookPayloadOf rawInput beforeShellExecution w) = Return true →
     own_property rawInput "command" = Some (VString command) →
     ∃ p, quick_start call_function console_format JSON_stringify rawInput w
          = (Return tt,
             mkWorld (stdout w ++ [JSON_stringify (reviewed_response p)])
                     (stderr w) (invoked w)) ∧
          HookPermissionResponse (reviewed_response p) = true ∧
          ((∃ a b, command = a ++ "rm -rf" ++ b) → p = "deny") ∧
          (¬ (∃ a b, command = a ++ "rm -rf" ++ b) → p = "allow")).
Proof.
  rewrite isHookPayloadOf_run. cbn [fst]. unfold quick_start. split.
  - intros [= Hno]. rewrite guarded_run_exit, Hno. reflexivity.
  - intros command [= Hyes] Hcommand. rewrite guarded_run_exit, Hyes.
    apply discriminates_true in Hyes as (o & -> & Hname).
    unfold mbind, Js_bind, bind. rewrite get_property_field by reflexivity.
    cbn [own_property] in Hcommand. unfold field. rewrite Hcommand.
    cbv beta iota. rewrite call_includes_string. cbn [ToBoolean].
    destruct (includes "rm -rf" command) eqn:Hinc; eexists;
      (split; [reflexivity|]); (split; [reflexivity|]).
    + split; [done|]. intros Hnot. by apply includes_spec in Hinc.
    + split; [|done]. intros Hyes%includes_spec. congruence.
Qed.

(** X17. The npm example does not look at the event: for every object
    whose [command] is a string it prints one response, of the permission
    response type.  The response denies, with the message for the agent,
    exactly when the command starts with "npm" or contains " npm ";
    otherwise it allows and has no message. *)
Theorem block_npm_outcome (o : gmap string value) (command : string) (w : World) :
  o !! "command" = Some (VString command) →
  ∃ r, block_npm call_function JSON_stringify_indented (VObject o) w
       = (Return tt,
          mkWorld (stdout w ++ [JSON_stringify_indented r]) (stderr w) (invoked w)) ∧
       HookPermissionResponse r = true ∧
       ((∃ b, command = "npm" ++ b) ∨ (∃ a b, command = a ++ " npm " ++ b) →
        r = npm_blocked_response) ∧
       (¬ ((∃ b, command = "npm" ++ b) ∨ (∃ a b, command = a ++ " npm " ++ b)) →
        r = npm_allowed_response).
Proof.
  intros Hcommand. unfold block_npm.
  unfold mbind, Js_bind, bind. rewrite !get_property_field by reflexivity.
  unfold field. rewrite Hcommand. cbv beta iota.
  rewrite call_startsWith_string. cbn [ToBoolean].
  destruct (String.prefix "npm" command) eqn:Hpre.
  - eexists. split; [reflexivity|]. split; [reflexivity|]. split; [done|].
    intros Hnot. apply prefix_spec in Hpre. destruct Hnot. by left.
  - rewrite get_property_field by reflexivity. unfold field.
    rewrite Hcommand. cbv beta iota.
    rewrite call_includes_string. cbn [ToBoolean].
    destruct (includes " npm " command) eqn:Hinc;
      eexists; (split; [reflexivity|]); (split; [reflexivity|]).
    + split; [done|]. intros Hnot. apply includes_spec in Hinc.
      destruct Hnot. by right.
    + split; [|done]. intros [Hp%prefix_spec | Hi%includes_spec]; congruence.
Qed.

End TemplateProperties.

(** ** Witnesses *)

Lemma readme_handlers_reject_witness :
  handleStop sample_Number_toString sample_Function_toString
    read_file_payload empty_world
  = (Throw (Error "Invalid stop payload"), empty_world).
Proof.
  apply (readme_handlers_reject sample_Number_toString sample_Function_toString
           sample_String_toNumber sample_call_function sample_console_format
           stop); reflexivity.
Defined.

Lemma handleBeforeShellExecution_decision_witness :
  ∃ r, handleBeforeShellExecution sample_call_function
         (VObject scenario_A_fields) empty_world = (Return r, empty_world) ∧
       r = blocked_response.
Proof.
  edestruct handleBeforeShellExecution_decision
    with (call_function := sample_call_function) (o := scenario_A_fields)
         (command := "rm -rf /") (w := empty_world)
    as (r & Hrun & Hyes & _); [reflexivity | reflexivity |].
  exists r. split; [exact Hrun|]. apply Hyes. by exists "", " /".
Defined.

Lemma handleBeforeReadFile_decision_witness :
  ∃ r, handleBeforeReadFile sample_call_function read_file_payload empty_world
       = (Return r, empty_world) ∧
       r = permission_response "deny".
Proof.
  edestruct handleBeforeReadFile_decision
    with (call_function := sample_call_function)
         (o := properties_of read_file_payload)
         (content := "API_KEY=1") (w := empty_world)
    as (r & Hrun & Hyes & _); [reflexivity | reflexivity |].
  exists r. split; [exact Hrun|]. apply Hyes. by exists "", "=1".
Defined.

Lemma handleBeforeMCPExecution_decision_witness :
  ∃ r, handleBeforeMCPExecution (VObject dangerous_tool_fields) empty_world
       = (Return r, empty_world) ∧
       r = confirm_response.
Proof.
  destruct (handleBeforeMCPExecution_decision dangerous_tool_fields empty_world)
    as (r & Hrun & Hyes & _); [reflexivity|].
  exists r. split; [exact Hrun|]. apply Hyes. reflexivity.
Defined.



Lemma readme_handlers_missing_field_witness :
  ∃ message,
    handleBeforeShellExecution sample_call_function
      (VObject no_command_fields) empty_world
    = (Throw (TypeError message), empty_world).
Proof.
  apply (readme_handlers_missing_field sample_Number_toString
           sample_Function_toString sample_String_toNumber sample_call_function
           sample_console_format beforeShellExecution "command").
  - simpl. tauto.
  - reflexivity.
  - reflexivity.
  - left. reflexivity.
Defined.


Lemma readme_handlers_response_type_witness :
  HookResponseMap beforeMCPExecution confirm_response = true.
Proof.
  apply (readme_handlers_response_type sample_Number_toString
           sample_Function_toString sample_String_toNumber sample_call_function
           sample_console_format beforeMCPExecution handleBeforeMCPExecution
           (VObject dangerous_tool_fields) confirm_response
           empty_world empty_world); reflexivity.
Defined.

Lemma dispatch_outcome_witness :
  dispatch sample_Number_toString sample_Function_toString sample_JSON_stringify
    (λ _ _, mret VUndefined)
    {[ "beforeMCPExecution" := handleBeforeMCPExecution ]}
    (VObject dangerous_tool_fields) empty_world
  = (Return tt, mkWorld ["{}"] [] ["beforeMCPExecution"]).
Proof.
  apply (dispatch_outcome sample_Number_toString sample_Function_toString
           sample_JSON_stringify (λ _ _, mret VUndefined)
           {[ "beforeMCPExecution" := handleBeforeMCPExecution ]}
           (VObject dangerous_tool_fields) "beforeMCPExecution"
           handleBeforeMCPExecution empty_world); reflexivity.
Defined.

Lemma dispatch_shell_execution_witness :
  ∃ r, dispatch sample_Number_toString sample_Function_toString
         sample_JSON_stringify (λ _ _, mret VUndefined)
         (readme_handlers sample_Number_toString sample_Function_toString
            sample_String_toNumber sample_call_function sample_console_format)
         (VObject scenario_A_fields) empty_world
       = (Return tt,
          mkWorld [sample_JSON_stringify r] [] ["beforeShellExecution"]) ∧
       r = blocked_response.
Proof.
  edestruct dispatch_shell_execution
    with (Number_toString := sample_Number_toString)
         (Function_toString := sample_Function_toString)
         (String_toNumber := sample_String_toNumber)
         (call_function := sample_call_function)
         (console_format := sample_console_format)
         (JSON_stringify := sample_JSON_stringify)
         (Object_prototype_call := λ (_ : string) (_ : value), mret (M := Js) VUndefined)
         (o := scenario_A_fields) (command := "rm -rf /") (w := empty_world)
    as (r & Hrun & Hyes & _); [reflexivity | reflexivity |].
  exists r. split; [exact Hrun|]. apply Hyes. by exists "", " /".
Defined.


Lemma dispatch_inherited_witness :
  dispatch sample_Number_toString sample_Function_toString
    sample_JSON_stringify (λ k _, mret (VString k)) ∅ toString_payload empty_world
  = (Return tt, mkWorld ["{}"] [] ["toString"]).
Proof.
  etrans.
  - apply (dispatch_inherited sample_Number_toString sample_Function_toString
             sample_JSON_stringify (λ k _, mret (VString k)) ∅
             toString_payload "toString" empty_world).
    + simpl. tauto.
    + reflexivity.
    + reflexivity.
  - reflexivity.
Defined.

Lemma dispatch_without_discriminant_witness :
  dispatch sample_Number_toString sample_Function_toString
    sample_JSON_stringify (λ _ _, mret VUndefined) stop_only_table
    (VArray [VString "stop"]) empty_world
  = (Exit 1, mkWorld [] ["No handler for undefined"] []).
Proof.
  apply (dispatch_without_discriminant sample_Number_toString
           sample_Function_toString sample_JSON_stringify
           (λ _ _, mret VUndefined) stop_only_table
           (VArray [VString "stop"]) empty_world); reflexivity.
Defined.

Lemma quick_start_outcome_witness :
  quick_start sample_call_function sample_console_format sample_JSON_stringify
    read_file_payload empty_world
  = (Exit 1, mkWorld [] ["Unexpected hook payload"] []).
Proof.
  destruct (quick_start_outcome sample_call_function sample_console_format
              sample_JSON_stringify read_file_payload empty_world) as [Hno _].
  apply Hno. reflexivity.
Defined.

Lemma block_npm_outcome_witness :
  ∃ r, block_npm sample_call_function sample_JSON_stringify
         (VObject npm_install_fields) empty_world
       = (Return tt, mkWorld [sample_JSON_stringify r] [] []) ∧
       r = npm_blocked_response.
Proof.
  destruct (block_npm_outcome sample_call_function sample_JSON_stringify
              npm_install_fields "npm install" empty_world)
    as (r & Hrun & _ & Hyes & _); [reflexivity|].
  exists r. split; [exact Hrun|]. apply Hyes. left. by exists " install".
Defined.

Lemma dispatch_readme_response_witness :
  dispatch sample_Number_toString sample_Function_toString
    sample_JSON_stringify (λ _ _, mret VUndefined)
    (readme_handlers sample_Number_toString sample_Function_toString
       sample_String_toNumber sample_call_function sample_console_format)
    (VObject dangerous_tool_fields) empty_world
  = (Return tt, mkWorld ["{}"] [] ["beforeMCPExecution"]).
Proof.
  etrans.
  - apply (dispatch_readme_response sample_Number_toString
             sample_Function_toString sample_String_toNumber
             sample_call_function sample_console_format sample_JSON_stringify
             (λ _ _, mret VUndefined) beforeMCPExecution
             handleBeforeMCPExecution dangerous_tool_fields empty_world);
      reflexivity.
  - reflexivity.
Defined.

Lemma dispatch_readme_unknown_name_witness :
  dispatch sample_Number_toString sample_Function_toString
    sample_JSON_stringify (λ _ _, mret VUndefined)
    (readme_handlers sample_Number_toString sample_Function_toString
       sample_String_toNumber sample_call_function sample_console_format)
    (VObject {[ "hook_event_name" := VString "notAnEvent" ]}) empty_world
  = (Exit 1, mkWorld [] ["No handler for notAnEvent"] []).
Proof.
  apply (dispatch_readme_unknown_name sample_Number_toString
           sample_Function_toString sample_String_toNumber sample_call_function
           sample_console_format sample_JSON_stringify (λ _ _, mret VUndefined)
           (VObject {[ "hook_event_name" := VString "notAnEvent" ]})
           "notAnEvent" empty_world).
  - reflexivity.
  - reflexivity.
  - simpl. intros H. repeat destruct H as [H|H]; discriminate || done.
Defined.
